(** * Unit of Work over sqlx: dual-mode dispatch and transaction lifecycle

    A shallow embedding of [src/db/unitofwork.go] (package [db]).

    - A [*unitOfWork] is a location in a store of [unitOfWork] records, so
      that the work function handed to [InTransaction] and [InTransaction]
      itself act on the same object.
    - Go's [panic] is an outcome of its own, distinct from a returned
      [error]; the store survives a panic, as it does in Go.
    - The sqlx collaborator ([*sqlx.DB], [*sqlx.Tx]) is outside the
      repository.  It is a parameter: a [sqlx.Driver] answers every call from
      the history of the calls made so far, and every call is recorded. *)

From Stdlib Require Import ZArith String List Lia.
From stdpp Require Import base option gmap strings list.

Local Open Scope string_scope.
Local Open Scope list_scope.

(** ** Values *)

(** A Go [error]: [nil] or an error value, identified by its message. *)
Definition error := option string.

(** [errors.New(msg)] *)
Definition errors_New (msg : string) : error := Some msg.

(** A non-nil value of type [interface{}]. *)
Inductive dyn : Type :=
| DynErr (msg : string)
| DynInt (n : Z)
| DynStr (s : string)
| DynMap (fields : list (string * Z)).

(** [interface{}]: [nil] or a dynamic value. *)
Definition any := option dyn.

(** Handles of the collaborator. *)
Definition DB := nat.            (* a [*sqlx.DB] *)
Definition Tx := nat.            (* a non-nil [*sqlx.Tx] *)
Definition Rows := option nat.   (* a [*sqlx.Rows], possibly nil *)
Definition native := option nat. (* a [sql.Result] made by the collaborator *)

(** The outcome of running Go code: a normal return, or a panic carrying the
    value [recover()] would give (never nil: a [panic(nil)] reaches
    [recover] as a runtime error value). *)
Inductive Outcome (A : Type) : Type :=
| Ret (a : A)
| Panic (r : dyn).
Arguments Ret {A} a.
Arguments Panic {A} r.

(** ** The recorded calls to the collaborator *)

Inductive Target : Type :=
| OnDB (d : DB)
| OnTx (t : Tx).

Inductive Call : Type :=
| CMustBegin (d : DB)
| CNamedExec (on : Target) (query : string) (arg : any)
| CQueryx (on : Target) (query : string) (args : list any)
| CSelect (on : Target) (dest : any) (query : string) (args : list any)
| CNamedQuery (on : Target) (query : string) (arg : any)
| CMustExec (on : Target) (query : string) (args : list any)
| CGet (on : Target) (dest : any) (query : string) (args : list any)
| CCommit (t : Tx)
| CRollback (t : Tx).

Definition is_commit (c : Call) : bool :=
  match c with CCommit _ => true | _ => false end.

Definition is_rollback (c : Call) : bool :=
  match c with CRollback _ => true | _ => false end.

Definition commits (cs : list Call) : nat := length (List.filter is_commit cs).
Definition rollbacks (cs : list Call) : nat := length (List.filter is_rollback cs).

(** ** The collaborator *)

Module sqlx.

(** What [*sqlx.DB] and [*sqlx.Tx] answer, given the calls made before.
    A call that takes a statement returns what its Go signature says or
    panics: [MustBegin] and [MustExec] panic instead of returning an error,
    and the others may panic too (sqlx does on a named argument that is
    neither a map nor a struct).  [Commit] and [Rollback] take no argument
    and report a failure through their error. *)
Record Driver : Type := {
  MustBegin : list Call -> DB -> Outcome (option Tx);
  NamedExec : list Call -> Target -> string -> any -> Outcome (native * error);
  Queryx : list Call -> Target -> string -> list any -> Outcome (Rows * error);
  Select : list Call -> Target -> any -> string -> list any -> Outcome error;
  NamedQuery : list Call -> Target -> string -> any -> Outcome (Rows * error);
  MustExec : list Call -> Target -> string -> list any -> Outcome native;
  Get : list Call -> Target -> any -> string -> list any -> Outcome error;
  Commit : list Call -> Tx -> error;
  Rollback : list Call -> Tx -> error
}.

End sqlx.

(** ** The data of package [db] *)

(** [type unitOfWork struct { db *sqlx.DB; tx *sqlx.Tx }] *)
Record unitOfWork : Type := { db : DB; tx : option Tx }.

(** [type resultSet struct { rowsAffected int64; err error }] *)
Record resultSet : Type := { rowsAffected : Z; err : error }.

(** A [sql.Result]: the collaborator's own value, or a [*resultSet]. *)
Inductive sql_Result : Type :=
| Native (r : native)
| Adapter (r : resultSet).

(** [func (r *resultSet) LastInsertId() (int64, error)] *)
Definition LastInsertId (r : resultSet) : Z * error := (rowsAffected r, err r).

(** [func (r *resultSet) RowsAffected() (int64, error)] *)
Definition RowsAffected (r : resultSet) : Z * error := (rowsAffected r, err r).

(** A [*unitOfWork]. *)
Definition loc := nat.

(** The store: the [unitOfWork] objects, the calls made to the collaborator
    (oldest first) and the values handed to [log.Println]. *)
Record State : Type := {
  heap : gmap nat unitOfWork;
  calls : list Call;
  logged : list error
}.

Definition set_heap (h : gmap nat unitOfWork) (s : State) : State :=
  {| heap := h; calls := calls s; logged := logged s |}.

Definition record_call (c : Call) (s : State) : State :=
  {| heap := heap s; calls := calls s ++ [c]; logged := logged s |}.

Definition record_log (e : error) (s : State) : State :=
  {| heap := heap s; calls := calls s; logged := logged s ++ [e] |}.

(** ** Computations: state passing with panics *)

Definition M (A : Type) : Type := State -> Outcome A * State.

Definition ret {A} (a : A) : M A := fun s => (Ret a, s).

Definition panic {A} (r : dyn) : M A := fun s => (Panic r, s).

Definition bind {A B} (m : M A) (k : A -> M B) : M B :=
  fun s =>
    match m s with
    | (Ret a, s') => k a s'
    | (Panic r, s') => (Panic r, s')
    end.

Notation "x <- m ;; k" := (bind m (fun x => k))
  (at level 62, m at next level, right associativity).
Notation "m ;;; k" := (bind m (fun _ => k))
  (at level 62, right associativity).

(** [defer func() { ... recover() ... }()] around a body whose results are
    unnamed.  The deferred function runs on every exit and is given what
    [recover()] answers: [None] after a normal return, the panic value
    otherwise.  If it returns while panicking the panic is stopped and the
    function returns the zero values; if it panics, that panic goes on. *)
Definition defer_recover {A} (zero : A) (deferred : option dyn -> M unit)
    (body : M A) : M A :=
  fun s =>
    match body s with
    | (Ret a, s1) =>
        match deferred None s1 with
        | (Ret _, s2) => (Ret a, s2)
        | (Panic r', s2) => (Panic r', s2)
        end
    | (Panic r, s1) =>
        match deferred (Some r) s1 with
        | (Ret _, s2) => (Ret zero, s2)
        | (Panic r', s2) => (Panic r', s2)
        end
    end.

(** The runtime error of a dereference that finds no object. *)
Definition nil_dereference : dyn :=
  DynErr "runtime error: invalid memory address or nil pointer dereference".

(** Reading the fields of [*u]. *)
Definition deref (u : loc) : M unitOfWork :=
  fun s =>
    match heap s !! u with
    | Some uw => (Ret uw, s)
    | None => (Panic nil_dereference, s)
    end.

(** [u.tx = t] *)
Definition set_tx (u : loc) (t : option Tx) : M unit :=
  fun s =>
    match heap s !! u with
    | Some uw => (Ret tt, set_heap (<[u := {| db := db uw; tx := t |}]> (heap s)) s)
    | None => (Panic nil_dereference, s)
    end.

(** [log.Println(e)] *)
Definition log_Println (e : error) : M unit :=
  fun s => (Ret tt, record_log e s).

(** A call answered by a value ([Commit] and [Rollback] of a handle). *)
Definition ask {A} (c : Call) (reply : list Call -> A) : M A :=
  fun s => (Ret (reply (calls s)), record_call c s).

(** A call that returns a value or panics. *)
Definition ask_must {A} (c : Call) (reply : list Call -> Outcome A) : M A :=
  fun s => (reply (calls s), record_call c s).

(** ** The methods of [*unitOfWork] *)

(** The message of the failure raised when there is no transaction. *)
Definition no_transaction : string := "Nenhuma transação foi iniciada.".

Section UnitOfWork.

Variable drv : sqlx.Driver.

(** [func NewUnitOfWork(db *sqlx.DB, tx *sqlx.Tx) UnitOfWork]: a new
    object, at a location not in use. *)
Definition NewUnitOfWork (d : DB) (t : option Tx) : M loc :=
  fun s =>
    let u := fresh (dom (heap s)) in
    (Ret u, set_heap (<[u := {| db := d; tx := t |}]> (heap s)) s).

(** [func (u *unitOfWork) begin()] *)
Definition begin (u : loc) : M unit :=
  uw <- deref u ;;
  t <- ask_must (CMustBegin (db uw)) (fun h => sqlx.MustBegin drv h (db uw)) ;;
  set_tx u t ;;;
  uw' <- deref u ;;
  match tx uw' with
  | None => panic (DynErr no_transaction)
  | Some _ => ret tt
  end.

(** [func (u *unitOfWork) Commit() error] *)
Definition Commit (u : loc) : M error :=
  uw <- deref u ;;
  match tx uw with
  | None => panic (DynErr no_transaction)
  | Some t =>
      err <- ask (CCommit t) (fun h => sqlx.Commit drv h t) ;;
      match err with
      | Some _ => set_tx u None ;;; ret err
      | None => set_tx u None ;;; ret None
      end
  end.

(** [func (u *unitOfWork) Rollback() error] *)
Definition Rollback (u : loc) : M error :=
  uw <- deref u ;;
  match tx uw with
  | None => panic (DynErr no_transaction)
  | Some t =>
      err <- ask (CRollback t) (fun h => sqlx.Rollback drv h t) ;;
      match err with
      | Some _ => set_tx u None ;;; ret err
      | None => set_tx u None ;;; ret None
      end
  end.

(** [func (u *unitOfWork) MustNamedExec(query string, arg interface{}) sql.Result] *)
Definition MustNamedExec (u : loc) (query : string) (arg : any) : M sql_Result :=
  uw <- deref u ;;
  match tx uw with
  | Some t =>
      p <- ask_must (CNamedExec (OnTx t) query arg)
               (fun h => sqlx.NamedExec drv h (OnTx t) query arg) ;;
      let '(res, err) := p in
      match err with
      | Some _ => ret (Adapter {| rowsAffected := 0; err := err |})
      | None => ret (Native res)
      end
  | None =>
      p <- ask_must (CNamedExec (OnDB (db uw)) query arg)
               (fun h => sqlx.NamedExec drv h (OnDB (db uw)) query arg) ;;
      let '(res, err) := p in
      match err with
      | Some _ => ret (Adapter {| rowsAffected := 0; err := err |})
      | None => ret (Native res)
      end
  end.

(** [func (u *unitOfWork) Query(query string, args ...interface{})],
    returning a [*sqlx.Rows] and an [error] *)
Definition Query (u : loc) (query : string) (args : list any) : M (Rows * error) :=
  uw <- deref u ;;
  match tx uw with
  | Some t =>
      ask_must (CQueryx (OnTx t) query args) (fun h => sqlx.Queryx drv h (OnTx t) query args)
  | None =>
      ask_must (CQueryx (OnDB (db uw)) query args)
          (fun h => sqlx.Queryx drv h (OnDB (db uw)) query args)
  end.

(** [func (u *unitOfWork) Select(dest interface{}, query string, args ...interface{}) error] *)
Definition Select (u : loc) (dest : any) (query : string) (args : list any) : M error :=
  uw <- deref u ;;
  match tx uw with
  | Some t =>
      ask_must (CSelect (OnTx t) dest query args)
          (fun h => sqlx.Select drv h (OnTx t) dest query args)
  | None =>
      ask_must (CSelect (OnDB (db uw)) dest query args)
          (fun h => sqlx.Select drv h (OnDB (db uw)) dest query args)
  end.

(** [func (u *unitOfWork) NamedQuery(query string, arg interface{})],
    returning a [*sqlx.Rows] and an [error] *)
Definition NamedQuery (u : loc) (query : string) (arg : any) : M (Rows * error) :=
  uw <- deref u ;;
  match tx uw with
  | Some t =>
      ask_must (CNamedQuery (OnTx t) query arg)
          (fun h => sqlx.NamedQuery drv h (OnTx t) query arg)
  | None =>
      ask_must (CNamedQuery (OnDB (db uw)) query arg)
          (fun h => sqlx.NamedQuery drv h (OnDB (db uw)) query arg)
  end.

(** [func (u *unitOfWork) MustExec(query string, args ...interface{}) sql.Result] *)
Definition MustExec (u : loc) (query : string) (args : list any) : M sql_Result :=
  uw <- deref u ;;
  match tx uw with
  | Some t =>
      res <- ask_must (CMustExec (OnTx t) query args)
                      (fun h => sqlx.MustExec drv h (OnTx t) query args) ;;
      ret (Native res)
  | None =>
      res <- ask_must (CMustExec (OnDB (db uw)) query args)
                      (fun h => sqlx.MustExec drv h (OnDB (db uw)) query args) ;;
      ret (Native res)
  end.

(** [func (u *unitOfWork) Get(dest interface{}, query string, args ...interface{}) error] *)
Definition Get (u : loc) (dest : any) (query : string) (args : list any) : M error :=
  uw <- deref u ;;
  match tx uw with
  | Some t =>
      ask_must (CGet (OnTx t) dest query args)
          (fun h => sqlx.Get drv h (OnTx t) dest query args)
  | None =>
      ask_must (CGet (OnDB (db uw)) dest query args)
          (fun h => sqlx.Get drv h (OnDB (db uw)) dest query args)
  end.

(** The function deferred by [InTransaction]:
    [if r := recover(); r != nil { log.Println(u.Rollback()); panic(r) }] *)
Definition InTransaction_deferred (u : loc) (r : option dyn) : M unit :=
  match r with
  | Some r =>
      e <- Rollback u ;;
      log_Println e ;;;
      panic r
  | None => ret tt
  end.

(** [func (u *unitOfWork) InTransaction(contextOver func(db UnitOfWork)
    (interface{}, error)) (interface{}, error)] *)
Definition InTransaction (u : loc) (contextOver : loc -> M (any * error))
    : M (any * error) :=
  begin u ;;;
  defer_recover (None, None) (InTransaction_deferred u)
    (p <- contextOver u ;;
     let '(result, err) := p in
     match err with
     | None => e <- Commit u ;; log_Println e
     | Some _ => e <- Rollback u ;; log_Println e
     end ;;;
     ret (result, err)).

End UnitOfWork.

(** ** Concrete collaborators and work functions *)

(** The state of a program that has made no object and no call yet. *)
Definition initial : State := {| heap := ∅; calls := []; logged := [] |}.

(** What a scripted collaborator does with a named argument: like sqlx, it
    panics unless the argument is a map (or a struct, which [dyn] has
    not). *)
Definition bad_named_argument : dyn :=
  DynErr "named argument is neither a map nor a struct".

Definition named {A} (arg : any) (reply : A) : Outcome A :=
  match arg with
  | Some (DynMap _) => Ret reply
  | _ => Panic bad_named_argument
  end.

(** A collaborator scripted by two answers: [settle] is what the handle's
    [Commit] and [Rollback] return and [exec] the error of every statement.
    A transaction begun after [n] calls has handle [n]. *)
Definition scripted (settle exec : error) : sqlx.Driver :=
  {| sqlx.MustBegin := fun h _ => Ret (Some (length h));
     sqlx.NamedExec := fun _ _ _ arg =>
       named arg
         match exec with Some _ => (None, exec) | None => (Some 1%nat, None) end;
     sqlx.Queryx := fun _ _ _ _ =>
       Ret match exec with Some _ => (None, exec) | None => (Some 7%nat, None) end;
     sqlx.Select := fun _ _ _ _ _ => Ret exec;
     sqlx.NamedQuery := fun _ _ _ arg =>
       named arg
         match exec with Some _ => (None, exec) | None => (Some 7%nat, None) end;
     sqlx.MustExec := fun _ _ _ _ =>
       match exec with Some msg => Panic (DynErr msg) | None => Ret (Some 1%nat) end;
     sqlx.Get := fun _ _ _ _ _ => Ret exec;
     sqlx.Commit := fun _ _ => settle;
     sqlx.Rollback := fun _ _ => settle |}.

(** The named argument [map[string]interface{}{"id": 1}]. *)
Definition row : any := Some (DynMap [("id", 1%Z)]).

(** A collaborator on which every statement and every settlement succeeds,
    and one that loses the connection when asked to commit or roll back. *)
Definition steady : sqlx.Driver := scripted None None.
Definition lossy : sqlx.Driver := scripted (Some "connection lost") None.

(** A collaborator that cannot begin a transaction ([MustBegin] panics with
    the error of the store), and one whose [MustBegin] returns a nil handle;
    both answer everything else as [steady] does. *)
Definition with_begin (b : Outcome (option Tx)) : sqlx.Driver :=
  {| sqlx.MustBegin := fun _ _ => b;
     sqlx.NamedExec := sqlx.NamedExec steady;
     sqlx.Queryx := sqlx.Queryx steady;
     sqlx.Select := sqlx.Select steady;
     sqlx.NamedQuery := sqlx.NamedQuery steady;
     sqlx.MustExec := sqlx.MustExec steady;
     sqlx.Get := sqlx.Get steady;
     sqlx.Commit := sqlx.Commit steady;
     sqlx.Rollback := sqlx.Rollback steady |}.

Definition refusing : sqlx.Driver :=
  with_begin (Panic (DynErr "too many connections")).

Definition empty_handed : sqlx.Driver := with_begin (Ret None).

(** A collaborator on which every statement fails. *)
Definition failing : sqlx.Driver := scripted None (Some "syntax error").

(** A connection handle and the state in which one idle instance, at
    location [0], is bound to it. *)
Definition conn : DB := 5%nat.

Definition idle : State :=
  set_heap (<[0%nat := {| db := conn; tx := None |}]> ∅) initial.

(** The same instance holding transaction [9], begun by a direct caller. *)
Definition active : State :=
  set_heap (<[0%nat := {| db := conn; tx := Some 9%nat |}]> ∅) initial.

(** Two instances on the same connection: the idle one at [0] and, at [1],
    one holding transaction [3]. *)
Definition two_instances : State :=
  set_heap (<[1%nat := {| db := conn; tx := Some 3%nat |}]> (heap idle)) idle.

(** Work functions, as a caller of [InTransaction] may write them. *)
Section Work.

Variable drv : sqlx.Driver.

(** [func(db UnitOfWork) (interface{}, error) { return 42, nil }] *)
Definition work_value (_ : loc) : M (any * error) :=
  ret (Some (DynInt 42), None).

(** [... { return nil, errors.New("rejected") }] *)
Definition work_error (_ : loc) : M (any * error) :=
  ret (None, errors_New "rejected").

(** [... { panic("boom") }] *)
Definition work_panic (_ : loc) : M (any * error) :=
  panic (DynStr "boom").

(** [... { db.MustNamedExec("insert", map[string]interface{}{"id": 1});
    return 42, nil }] *)
Definition work_insert (u : loc) : M (any * error) :=
  MustNamedExec drv u "insert" row ;;;
  ret (Some (DynInt 42), None).

(** [... { db.Commit(); return 42, nil }]: the work settles the
    transaction itself. *)
Definition work_commits (u : loc) : M (any * error) :=
  Commit drv u ;;;
  ret (Some (DynInt 42), None).

(** [... { db.Rollback(); return nil, errors.New("rejected") }] *)
Definition work_rolls_back (u : loc) : M (any * error) :=
  Rollback drv u ;;;
  ret (None, errors_New "rejected").

(** [... { db.Commit(); panic("boom") }] *)
Definition work_commits_then_panics (u : loc) : M (any * error) :=
  Commit drv u ;;;
  panic (DynStr "boom").

(** [... { db.InTransaction(func(db UnitOfWork) (interface{}, error) {
    return 42, nil }); return 42, nil }]: the work starts a transaction
    on the instance it was given. *)
Definition work_nested (u : loc) : M (any * error) :=
  InTransaction drv u work_value ;;;
  ret (Some (DynInt 42), None).

(** [... { db.MustNamedExec("insert", 1); return 42, nil }]: a named
    argument sqlx cannot bind. *)
Definition work_insert_int (u : loc) : M (any * error) :=
  MustNamedExec drv u "insert" (Some (DynInt 1)) ;;;
  ret (Some (DynInt 42), None).

(** [... { db.MustExec("delete"); return 42, nil }] *)
Definition work_must_exec (u : loc) : M (any * error) :=
  MustExec drv u "delete" [] ;;;
  ret (Some (DynInt 42), None).

End Work.

(** ** The dispatch rule, in the words of the specification

    "If the instance currently holds an active transaction, route the call
    to the transaction handle; otherwise route it to the shared
    Connection." *)
Definition dispatch_target (uw : unitOfWork) : Target :=
  match tx uw with
  | Some t => OnTx t
  | None => OnDB (db uw)
  end.

(** What [MustNamedExec] makes of the collaborator's answer: the adapter for
    an error, the collaborator's result otherwise; a panic goes through. *)
Definition adapt (reply : native * error) : sql_Result :=
  match snd reply with
  | Some e => Adapter {| rowsAffected := 0; err := Some e |}
  | None => Native (fst reply)
  end.

Definition adapted (reply : Outcome (native * error)) : Outcome sql_Result :=
  match reply with
  | Ret p => Ret (adapt p)
  | Panic r => Panic r
  end.

(** What [MustExec] makes of the collaborator's answer. *)
Definition must (reply : Outcome native) : Outcome sql_Result :=
  match reply with
  | Ret res => Ret (Native res)
  | Panic r => Panic r
  end.

(** The instance at [u] with its transaction reference set to [t]. *)
Definition with_tx (u : loc) (uw : unitOfWork) (t : option Tx)
    (h : gmap nat unitOfWork) : gmap nat unitOfWork :=
  <[u := {| db := db uw; tx := t |}]> h.

(** The call by which [InTransaction] settles the transaction [t] once the
    work function has returned [err], and the collaborator's answer to it. *)
Definition settlement (err : error) (t : Tx) : Call :=
  match err with
  | None => CCommit t
  | Some _ => CRollback t
  end.

Definition settlement_reply (drv : sqlx.Driver) (err : error)
    (h : list Call) (t : Tx) : error :=
  match err with
  | None => sqlx.Commit drv h t
  | Some _ => sqlx.Rollback drv h t
  end.

(** * Properties *)

Section Lifecycle.

Variable drv : sqlx.Driver.

Lemma deref_held u uw s :
  heap s !! u = Some uw -> deref u s = (Ret uw, s).
Proof. intros H. unfold deref. now rewrite H. Qed.

Lemma deref_dangling u s :
  heap s !! u = None -> deref u s = (Panic nil_dereference, s).
Proof. intros H. unfold deref. now rewrite H. Qed.

Lemma set_tx_held u uw t s :
  heap s !! u = Some uw ->
  set_tx u t s = (Ret tt, set_heap (with_tx u uw t (heap s)) s).
Proof. intros H. unfold set_tx. now rewrite H. Qed.

(** [Commit] on an instance that holds transaction [t]. *)
Lemma Commit_held u uw t s :
  heap s !! u = Some uw -> tx uw = Some t ->
  Commit drv u s =
    (Ret (sqlx.Commit drv (calls s) t),
     {| heap := with_tx u uw None (heap s);
        calls := calls s ++ [CCommit t];
        logged := logged s |}).
Proof.
  intros Hu Ht. unfold Commit, bind. rewrite (deref_held _ _ _ Hu), Ht.
  unfold ask. destruct (sqlx.Commit drv (calls s) t) eqn:E;
    unfold set_tx, ret; cbn; now rewrite Hu.
Qed.

(** [Rollback] on an instance that holds transaction [t]. *)
Lemma Rollback_held u uw t s :
  heap s !! u = Some uw -> tx uw = Some t ->
  Rollback drv u s =
    (Ret (sqlx.Rollback drv (calls s) t),
     {| heap := with_tx u uw None (heap s);
        calls := calls s ++ [CRollback t];
        logged := logged s |}).
Proof.
  intros Hu Ht. unfold Rollback, bind. rewrite (deref_held _ _ _ Hu), Ht.
  unfold ask. destruct (sqlx.Rollback drv (calls s) t) eqn:E;
    unfold set_tx, ret; cbn; now rewrite Hu.
Qed.

Lemma Commit_absent u uw s :
  heap s !! u = Some uw -> tx uw = None ->
  Commit drv u s = (Panic (DynErr no_transaction), s).
Proof.
  intros Hu Ht. unfold Commit, bind. now rewrite (deref_held _ _ _ Hu), Ht.
Qed.

Lemma Rollback_absent u uw s :
  heap s !! u = Some uw -> tx uw = None ->
  Rollback drv u s = (Panic (DynErr no_transaction), s).
Proof.
  intros Hu Ht. unfold Rollback, bind. now rewrite (deref_held _ _ _ Hu), Ht.
Qed.

(** [begin] when the collaborator hands out transaction [t]; the
    reference held before, if any, plays no part. *)
Lemma begin_held u uw t s :
  heap s !! u = Some uw ->
  sqlx.MustBegin drv (calls s) (db uw) = Ret (Some t) ->
  begin drv u s =
    (Ret tt,
     {| heap := with_tx u uw (Some t) (heap s);
        calls := calls s ++ [CMustBegin (db uw)];
        logged := logged s |}).
Proof.
  intros Hu Hb. unfold begin, bind. rewrite (deref_held _ _ _ Hu).
  unfold ask_must. rewrite Hb. unfold set_tx. cbn. rewrite Hu.
  unfold deref, set_heap, with_tx. cbn. now rewrite lookup_insert_eq.
Qed.

(** The factory makes a new object with the fields it is given and touches
    no other; with a nil transaction the instance it makes is idle. *)
Lemma NewUnitOfWork_builds (d : DB) (t : option Tx) (s : State) :
  exists u,
    fst (NewUnitOfWork d t s) = Ret u /\
    heap s !! u = None /\
    heap (snd (NewUnitOfWork d t s)) !! u = Some {| db := d; tx := t |} /\
    (forall u', u' <> u -> heap (snd (NewUnitOfWork d t s)) !! u' = heap s !! u').
Proof.
  exists (fresh (dom (heap s))). unfold NewUnitOfWork. cbn.
  split; [reflexivity|]. split; [apply not_elem_of_dom, is_fresh|].
  split; [apply lookup_insert_eq|].
  intros u' Hne. now apply lookup_insert_ne.
Qed.

Lemma commits_snoc cs c :
  commits (cs ++ [c]) = (commits cs + (if is_commit c then 1 else 0))%nat.
Proof.
  unfold commits. rewrite List.filter_app, List.length_app. cbn.
  now destruct (is_commit c).
Qed.

Lemma rollbacks_snoc cs c :
  rollbacks (cs ++ [c]) = (rollbacks cs + (if is_rollback c then 1 else 0))%nat.
Proof.
  unfold rollbacks. rewrite List.filter_app, List.length_app. cbn.
  now destruct (is_rollback c).
Qed.

End Lifecycle.

Section Operations.

Variable drv : sqlx.Driver.

(** The six query/exec operations on an instance that exists: one call,
    made on [on], the target picked by the test of [u.tx]. *)
Lemma operations_run (u : loc) (uw : unitOfWork) (s : State) (on : Target) :
  heap s !! u = Some uw ->
  on = match tx uw with Some t => OnTx t | None => OnDB (db uw) end ->
  (forall q a,
     MustNamedExec drv u q a s =
       (adapted (sqlx.NamedExec drv (calls s) on q a),
        record_call (CNamedExec on q a) s)) /\
  (forall q a,
     Query drv u q a s =
       (sqlx.Queryx drv (calls s) on q a,
        record_call (CQueryx on q a) s)) /\
  (forall d q a,
     Select drv u d q a s =
       (sqlx.Select drv (calls s) on d q a,
        record_call (CSelect on d q a) s)) /\
  (forall q a,
     NamedQuery drv u q a s =
       (sqlx.NamedQuery drv (calls s) on q a,
        record_call (CNamedQuery on q a) s)) /\
  (forall q a,
     MustExec drv u q a s =
       (must (sqlx.MustExec drv (calls s) on q a),
        record_call (CMustExec on q a) s)) /\
  (forall d q a,
     Get drv u d q a s =
       (sqlx.Get drv (calls s) on d q a,
        record_call (CGet on d q a) s)).
Proof.
  intros Hu ->.
  repeat split; intros;
    unfold MustNamedExec, Query, Select, NamedQuery, MustExec, Get, bind;
    rewrite (deref_held _ _ _ Hu);
    destruct (tx uw) as [t|]; unfold ask_must, adapted, adapt, must, ret; cbn;
    try reflexivity.
  - destruct (sqlx.NamedExec drv (calls s) (OnTx t) q a) as [[res [e|]]|r]; reflexivity.
  - destruct (sqlx.NamedExec drv (calls s) (OnDB (db uw)) q a) as [[res [e|]]|r]; reflexivity.
  - destruct (sqlx.MustExec drv (calls s) (OnTx t) q a); reflexivity.
  - destruct (sqlx.MustExec drv (calls s) (OnDB (db uw)) q a); reflexivity.
Qed.

(** Writing the transaction reference of [u] leaves every connection
    reference as it was. *)
Lemma with_tx_db (u u' : loc) (uw : unitOfWork) (t : option Tx)
    (h : gmap nat unitOfWork) :
  h !! u = Some uw ->
  db <$> with_tx u uw t h !! u' = db <$> h !! u'.
Proof.
  intros Hu. unfold with_tx. destruct (decide (u = u')) as [E|Hne].
  - subst u'. now rewrite lookup_insert_eq, Hu.
  - now rewrite lookup_insert_ne.
Qed.

(** X13. Inside [InTransaction]: in the state [begin] leaves, whatever the
    instance held before, the six query/exec operations of the instance go
    to the handle just begun, not to the connection. *)
Lemma dispatch_inside_transaction (u : loc) (uw : unitOfWork) (t : Tx)
    (s : State) :
  heap s !! u = Some uw ->
  sqlx.MustBegin drv (calls s) (db uw) = Ret (Some t) ->
  exists sb,
    begin drv u s = (Ret tt, sb) /\
    (forall q a,
       calls (snd (MustNamedExec drv u q a sb)) = calls sb ++ [CNamedExec (OnTx t) q a]) /\
    (forall q a,
       calls (snd (Query drv u q a sb)) = calls sb ++ [CQueryx (OnTx t) q a]) /\
    (forall d q a,
       calls (snd (Select drv u d q a sb)) = calls sb ++ [CSelect (OnTx t) d q a]) /\
    (forall q a,
       calls (snd (NamedQuery drv u q a sb)) = calls sb ++ [CNamedQuery (OnTx t) q a]) /\
    (forall q a,
       calls (snd (MustExec drv u q a sb)) = calls sb ++ [CMustExec (OnTx t) q a]) /\
    (forall d q a,
       calls (snd (Get drv u d q a sb)) = calls sb ++ [CGet (OnTx t) d q a]).
Proof.
  intros Hu Hb. eexists. split; [exact (begin_held drv u uw t s Hu Hb)|].
  match goal with |- context [MustNamedExec drv u _ _ ?sb] => set (sb0 := sb) end.
  assert (heap sb0 !! u = Some {| db := db uw; tx := Some t |}) as Hsb
    by (unfold sb0, with_tx; cbn; apply lookup_insert_eq).
  destruct (operations_run u _ sb0 (OnTx t) Hsb eq_refl)
    as (H1 & H2 & H3 & H4 & H5 & H6).
  repeat split; intros; rewrite ?H1, ?H2, ?H3, ?H4, ?H5, ?H6; reflexivity.
Qed.

End Operations.

Section Orchestration.

Variable drv : sqlx.Driver.

(** [InTransaction] when the transaction could be begun, the work
    function returned and the instance holds a transaction at that
    moment. *)
Lemma InTransaction_returns (u : loc) (work : loc -> M (any * error))
    (s sb s1 : State) (v : any) (e : error) (uw1 : unitOfWork) (t1 : Tx) :
  begin drv u s = (Ret tt, sb) ->
  work u sb = (Ret (v, e), s1) ->
  heap s1 !! u = Some uw1 ->
  tx uw1 = Some t1 ->
  InTransaction drv u work s =
    (Ret (v, e),
     {| heap := with_tx u uw1 None (heap s1);
        calls := calls s1 ++ [settlement e t1];
        logged := logged s1 ++ [settlement_reply drv e (calls s1) t1] |}).
Proof.
  intros Hb Hw Hu Ht. unfold InTransaction, bind at 1. rewrite Hb.
  unfold defer_recover, bind at 1. rewrite Hw. cbn.
  destruct e as [msg|]; unfold bind; cbn.
  - rewrite (Rollback_held drv u uw1 t1 s1 Hu Ht). reflexivity.
  - rewrite (Commit_held drv u uw1 t1 s1 Hu Ht). reflexivity.
Qed.

(** [InTransaction] when the work function panicked while the instance
    holds a transaction. *)
Lemma InTransaction_repanics (u : loc) (work : loc -> M (any * error))
    (s sb s1 : State) (r : dyn) (uw1 : unitOfWork) (t1 : Tx) :
  begin drv u s = (Ret tt, sb) ->
  work u sb = (Panic r, s1) ->
  heap s1 !! u = Some uw1 ->
  tx uw1 = Some t1 ->
  InTransaction drv u work s =
    (Panic r,
     {| heap := with_tx u uw1 None (heap s1);
        calls := calls s1 ++ [CRollback t1];
        logged := logged s1 ++ [sqlx.Rollback drv (calls s1) t1] |}).
Proof.
  intros Hb Hw Hu Ht. unfold InTransaction, bind at 1. rewrite Hb.
  unfold defer_recover, bind at 1. rewrite Hw. cbn.
  unfold bind. rewrite (Rollback_held drv u uw1 t1 s1 Hu Ht). reflexivity.
Qed.

End Orchestration.

Section Claims.

Variable drv : sqlx.Driver.

(** C1. Every query/exec operation ([MustNamedExec], [Query], [Select],
    [NamedQuery], [MustExec], [Get]), in every state of the instance,
    makes exactly one call to the collaborator and makes it on the target
    of the dispatch rule: the transaction handle when the transaction
    reference is non-absent, the shared connection otherwise.  What the
    operation gives back is the answer of that target (for [MustNamedExec]
    with an error turned into the adapter), and it panics when that target
    does. *)
Theorem dispatch_rule (u : loc) (uw : unitOfWork) (s : State) :
  heap s !! u = Some uw ->
  (forall t, tx uw = Some t -> dispatch_target uw = OnTx t) /\
  (tx uw = None -> dispatch_target uw = OnDB (db uw)) /\
  (forall q a,
     MustNamedExec drv u q a s =
       (adapted (sqlx.NamedExec drv (calls s) (dispatch_target uw) q a),
        record_call (CNamedExec (dispatch_target uw) q a) s)) /\
  (forall q a,
     Query drv u q a s =
       (sqlx.Queryx drv (calls s) (dispatch_target uw) q a,
        record_call (CQueryx (dispatch_target uw) q a) s)) /\
  (forall d q a,
     Select drv u d q a s =
       (sqlx.Select drv (calls s) (dispatch_target uw) d q a,
        record_call (CSelect (dispatch_target uw) d q a) s)) /\
  (forall q a,
     NamedQuery drv u q a s =
       (sqlx.NamedQuery drv (calls s) (dispatch_target uw) q a,
        record_call (CNamedQuery (dispatch_target uw) q a) s)) /\
  (forall q a,
     MustExec drv u q a s =
       (must (sqlx.MustExec drv (calls s) (dispatch_target uw) q a),
        record_call (CMustExec (dispatch_target uw) q a) s)) /\
  (forall d q a,
     Get drv u d q a s =
       (sqlx.Get drv (calls s) (dispatch_target uw) d q a,
        record_call (CGet (dispatch_target uw) d q a) s)).
Proof.
  intros Hu.
  split; [intros t Ht; unfold dispatch_target; now rewrite Ht|].
  split; [intros Ht; unfold dispatch_target; now rewrite Ht|].
  exact (operations_run drv u uw s (dispatch_target uw) Hu eq_refl).
Qed.

(** C10. No query/exec operation changes an instance: after
    [MustNamedExec], [Query], [Select], [NamedQuery], [MustExec] or [Get],
    whatever the state and the arguments and whether the call returns or
    panics, the store of instances is the one before, so the connection
    and the transaction reference of every instance are unchanged.
    [begin], [Commit] and [Rollback], the methods that write the
    transaction reference, leave the connection reference of every
    instance as it was. *)
Theorem operations_frame (u : loc) (s : State) :
  (forall q a, heap (snd (MustNamedExec drv u q a s)) = heap s) /\
  (forall q a, heap (snd (Query drv u q a s)) = heap s) /\
  (forall d q a, heap (snd (Select drv u d q a s)) = heap s) /\
  (forall q a, heap (snd (NamedQuery drv u q a s)) = heap s) /\
  (forall q a, heap (snd (MustExec drv u q a s)) = heap s) /\
  (forall d q a, heap (snd (Get drv u d q a s)) = heap s) /\
  (forall u', db <$> heap (snd (begin drv u s)) !! u' = db <$> heap s !! u') /\
  (forall u', db <$> heap (snd (Commit drv u s)) !! u' = db <$> heap s !! u') /\
  (forall u', db <$> heap (snd (Rollback drv u s)) !! u' = db <$> heap s !! u').
Proof.
  destruct (heap s !! u) as [uw|] eqn:Hu.
  - destruct (operations_run drv u uw s _ Hu eq_refl)
      as (H1 & H2 & H3 & H4 & H5 & H6).
    repeat split; intros;
      rewrite ?H1, ?H2, ?H3, ?H4, ?H5, ?H6; try reflexivity.
    + unfold begin, bind. rewrite (deref_held _ _ _ Hu). unfold ask_must.
      destruct (sqlx.MustBegin drv (calls s) (db uw)) as [t|r]; [|reflexivity].
      unfold set_tx. cbn. rewrite Hu. unfold deref. cbn.
      rewrite lookup_insert_eq. cbn.
      destruct t; cbn; exact (with_tx_db u u' uw _ (heap s) Hu).
    + destruct (tx uw) as [t|] eqn:Ht.
      * rewrite (Commit_held drv u uw t s Hu Ht). cbn.
        exact (with_tx_db u u' uw None (heap s) Hu).
      * now rewrite (Commit_absent drv u uw s Hu Ht).
    + destruct (tx uw) as [t|] eqn:Ht.
      * rewrite (Rollback_held drv u uw t s Hu Ht). cbn.
        exact (with_tx_db u u' uw None (heap s) Hu).
      * now rewrite (Rollback_absent drv u uw s Hu Ht).
  - repeat split; intros;
      unfold MustNamedExec, Query, Select, NamedQuery, MustExec, Get,
        begin, Commit, Rollback, bind;
      now rewrite (deref_dangling _ _ Hu).
Qed.

(** C8. Whatever the query, the argument and the state of the instance,
    when the underlying named execute fails with an error [e] (it returns
    a result and the non-nil error [e]), [MustNamedExec] returns (it does
    not panic) the adapter [&resultSet{0, e}], whose [RowsAffected] (and
    [LastInsertId]) answers [(0, e)], a fixed pair with count 0 and a
    non-nil error; when the underlying call succeeds, the collaborator's
    own result is returned unchanged. *)
Theorem MustNamedExec_adapter (u : loc) (uw : unitOfWork) (s : State)
    (q : string) (a : any) :
  heap s !! u = Some uw ->
  let reply := sqlx.NamedExec drv (calls s) (dispatch_target uw) q a in
  (forall res e, reply = Ret (res, Some e) ->
     fst (MustNamedExec drv u q a s)
       = Ret (Adapter {| rowsAffected := 0; err := Some e |}) /\
     RowsAffected {| rowsAffected := 0; err := Some e |} = (0%Z, Some e) /\
     LastInsertId {| rowsAffected := 0; err := Some e |} = (0%Z, Some e)) /\
  (forall res, reply = Ret (res, None) ->
     fst (MustNamedExec drv u q a s) = Ret (Native res)).
Proof.
  intros Hu reply.
  destruct (operations_run drv u uw s _ Hu eq_refl) as (H1 & _).
  fold (dispatch_target uw) in H1. rewrite H1. fold reply. cbn.
  split.
  - intros res e He. rewrite He. repeat split.
  - intros res He. now rewrite He.
Qed.

(** C7. On an instance with no active transaction, [Commit] and
    [Rollback] panic with the precondition failure instead of returning
    an error, and leave the whole state (connection and transaction
    reference of the instance included) as it was; calling again gives
    the same failure and the same state. *)
Theorem settle_without_transaction (u : loc) (uw : unitOfWork) (s : State) :
  heap s !! u = Some uw ->
  tx uw = None ->
  Commit drv u s = (Panic (DynErr no_transaction), s) /\
  Rollback drv u s = (Panic (DynErr no_transaction), s) /\
  Commit drv u (snd (Commit drv u s)) = Commit drv u s /\
  Rollback drv u (snd (Rollback drv u s)) = Rollback drv u s /\
  heap (snd (Commit drv u s)) !! u = Some uw /\
  heap (snd (Rollback drv u s)) !! u = Some uw.
Proof.
  intros Hu Ht.
  rewrite (Commit_absent drv u uw s Hu Ht), (Rollback_absent drv u uw s Hu Ht).
  cbn.
  rewrite (Commit_absent drv u uw s Hu Ht), (Rollback_absent drv u uw s Hu Ht).
  repeat split; assumption.
Qed.

(** C6. On an instance holding transaction [t], [Commit] and [Rollback]
    make the one underlying call, return what it returned (so its error,
    when it fails) and in both cases leave the transaction reference
    absent.  In any later state where the instance is as they left it, a
    new start writes the transaction the collaborator hands out then, and
    nothing of [t] remains: [InTransaction] called then begins that
    transaction [t'], runs the work function on the instance holding [t'],
    and settles what the work function leaves (commit for a nil error,
    rollback for an error, rollback and the same panic for a panic). *)
Theorem settle_clears (u : loc) (uw : unitOfWork) (t : Tx) (s : State) :
  heap s !! u = Some uw ->
  tx uw = Some t ->
  Commit drv u s =
    (Ret (sqlx.Commit drv (calls s) t),
     {| heap := with_tx u uw None (heap s);
        calls := calls s ++ [CCommit t];
        logged := logged s |}) /\
  Rollback drv u s =
    (Ret (sqlx.Rollback drv (calls s) t),
     {| heap := with_tx u uw None (heap s);
        calls := calls s ++ [CRollback t];
        logged := logged s |}) /\
  with_tx u uw None (heap s) !! u = Some {| db := db uw; tx := None |} /\
  (forall s' t',
     heap s' = with_tx u uw None (heap s) ->
     sqlx.MustBegin drv (calls s') (db uw) = Ret (Some t') ->
     begin drv u s' =
       (Ret tt,
        {| heap := with_tx u uw (Some t') (heap s);
           calls := calls s' ++ [CMustBegin (db uw)];
           logged := logged s' |})) /\
  (forall s' t' (work : loc -> M (any * error)),
     heap s' = with_tx u uw None (heap s) ->
     sqlx.MustBegin drv (calls s') (db uw) = Ret (Some t') ->
     let sb := {| heap := with_tx u uw (Some t') (heap s);
                  calls := calls s' ++ [CMustBegin (db uw)];
                  logged := logged s' |} in
     (forall v e s1 uw1 t1,
        work u sb = (Ret (v, e), s1) ->
        heap s1 !! u = Some uw1 ->
        tx uw1 = Some t1 ->
        InTransaction drv u work s' =
          (Ret (v, e),
           {| heap := with_tx u uw1 None (heap s1);
              calls := calls s1 ++ [settlement e t1];
              logged := logged s1 ++ [settlement_reply drv e (calls s1) t1] |})) /\
     (forall r s1 uw1 t1,
        work u sb = (Panic r, s1) ->
        heap s1 !! u = Some uw1 ->
        tx uw1 = Some t1 ->
        InTransaction drv u work s' =
          (Panic r,
           {| heap := with_tx u uw1 None (heap s1);
              calls := calls s1 ++ [CRollback t1];
              logged := logged s1 ++ [sqlx.Rollback drv (calls s1) t1] |}))).
Proof.
  intros Hu Ht.
  split; [exact (Commit_held drv u uw t s Hu Ht)|].
  split; [exact (Rollback_held drv u uw t s Hu Ht)|].
  assert (with_tx u uw None (heap s) !! u = Some {| db := db uw; tx := None |})
    as Hc by (unfold with_tx; apply lookup_insert_eq).
  split; [exact Hc|].
  assert (forall s' t',
            heap s' = with_tx u uw None (heap s) ->
            sqlx.MustBegin drv (calls s') (db uw) = Ret (Some t') ->
            begin drv u s' =
              (Ret tt,
               {| heap := with_tx u uw (Some t') (heap s);
                  calls := calls s' ++ [CMustBegin (db uw)];
                  logged := logged s' |})) as Hbegin.
  { intros s' t' Hs' Hb. rewrite <- Hs' in Hc.
    rewrite (begin_held drv u _ t' s' Hc Hb). cbn. rewrite Hs'.
    unfold with_tx. cbn. now rewrite insert_insert_eq. }
  split; [exact Hbegin|].
  intros s' t' work Hs' Hb sb. specialize (Hbegin s' t' Hs' Hb). split.
  - intros v e s1 uw1 t1 Hw Hu1 Ht1.
    exact (InTransaction_returns drv u work s' sb s1 v e uw1 t1 Hbegin Hw Hu1 Ht1).
  - intros r s1 uw1 t1 Hw Hu1 Ht1.
    exact (InTransaction_repanics drv u work s' sb s1 r uw1 t1 Hbegin Hw Hu1 Ht1).
Qed.

End Claims.

Section Transactions.

Variable drv : sqlx.Driver.

(** C2 (amended). When the transaction was begun, the work function returns
    normally with a value [v] and a nil error, and the instance holds a
    transaction reference at that moment, [InTransaction] commits the
    transaction held exactly once (the one call it makes after the work
    function), does not roll back, clears the reference and returns
    exactly [(v, nil)]. *)
Theorem InTransaction_commits (u : loc) (work : loc -> M (any * error))
    (s sb s1 : State) (v : any) (uw1 : unitOfWork) (t1 : Tx) :
  begin drv u s = (Ret tt, sb) ->
  work u sb = (Ret (v, None), s1) ->
  heap s1 !! u = Some uw1 ->
  tx uw1 = Some t1 ->
  let s' := snd (InTransaction drv u work s) in
  fst (InTransaction drv u work s) = Ret (v, None) /\
  calls s' = calls s1 ++ [CCommit t1] /\
  commits (calls s') = S (commits (calls s1)) /\
  rollbacks (calls s') = rollbacks (calls s1) /\
  heap s' !! u = Some {| db := db uw1; tx := None |}.
Proof.
  intros Hb Hw Hu Ht s'. subst s'.
  rewrite (InTransaction_returns drv u work s sb s1 v None uw1 t1 Hb Hw Hu Ht).
  cbn [fst snd calls heap logged settlement].
  rewrite commits_snoc, rollbacks_snoc. cbn [is_commit is_rollback].
  repeat split; try lia. unfold with_tx. apply lookup_insert_eq.
Qed.

(** C3 (amended). When the transaction was begun, the work function returns
    normally with a non-nil error (with a nil value or any other), and the
    instance holds a transaction reference at that moment, [InTransaction]
    rolls back the transaction held exactly once, does not commit, clears
    the reference and returns the work function's value and error
    unchanged. *)
Theorem InTransaction_rolls_back (u : loc) (work : loc -> M (any * error))
    (s sb s1 : State) (v : any) (msg : string) (uw1 : unitOfWork) (t1 : Tx) :
  begin drv u s = (Ret tt, sb) ->
  work u sb = (Ret (v, Some msg), s1) ->
  heap s1 !! u = Some uw1 ->
  tx uw1 = Some t1 ->
  let s' := snd (InTransaction drv u work s) in
  fst (InTransaction drv u work s) = Ret (v, Some msg) /\
  calls s' = calls s1 ++ [CRollback t1] /\
  rollbacks (calls s') = S (rollbacks (calls s1)) /\
  commits (calls s') = commits (calls s1) /\
  heap s' !! u = Some {| db := db uw1; tx := None |}.
Proof.
  intros Hb Hw Hu Ht s'. subst s'.
  rewrite (InTransaction_returns drv u work s sb s1 v (Some msg) uw1 t1 Hb Hw Hu Ht).
  cbn [fst snd calls heap logged settlement].
  rewrite commits_snoc, rollbacks_snoc. cbn [is_commit is_rollback].
  repeat split; try lia. unfold with_tx. apply lookup_insert_eq.
Qed.

(** C4 (amended). When the transaction was begun, the work function panics
    with [r], and the instance holds a transaction reference at that
    moment, [InTransaction] rolls back the transaction held exactly once,
    logs what the rollback returned, does not commit, and panics with [r]
    itself, whatever the rollback returned. *)
Theorem InTransaction_repanic (u : loc) (work : loc -> M (any * error))
    (s sb s1 : State) (r : dyn) (uw1 : unitOfWork) (t1 : Tx) :
  begin drv u s = (Ret tt, sb) ->
  work u sb = (Panic r, s1) ->
  heap s1 !! u = Some uw1 ->
  tx uw1 = Some t1 ->
  let s' := snd (InTransaction drv u work s) in
  fst (InTransaction drv u work s) = Panic r /\
  calls s' = calls s1 ++ [CRollback t1] /\
  rollbacks (calls s') = S (rollbacks (calls s1)) /\
  commits (calls s') = commits (calls s1) /\
  logged s' = logged s1 ++ [sqlx.Rollback drv (calls s1) t1].
Proof.
  intros Hb Hw Hu Ht s'. subst s'.
  rewrite (InTransaction_repanics drv u work s sb s1 r uw1 t1 Hb Hw Hu Ht).
  cbn [fst snd calls heap logged settlement].
  rewrite commits_snoc, rollbacks_snoc. cbn [is_commit is_rollback].
  repeat split; lia.
Qed.

(** C5 (amended). When the transaction was begun, the work function returns
    normally with [(v, e)], and the instance holds a transaction reference
    at that moment, [InTransaction] returns exactly [(v, e)]: what the
    settling commit (for a nil [e]) or rollback (otherwise) returned, error
    or not, is handed to the log and is no part of the result. *)
Theorem InTransaction_result (u : loc) (work : loc -> M (any * error))
    (s sb s1 : State) (v : any) (e : error) (uw1 : unitOfWork) (t1 : Tx) :
  begin drv u s = (Ret tt, sb) ->
  work u sb = (Ret (v, e), s1) ->
  heap s1 !! u = Some uw1 ->
  tx uw1 = Some t1 ->
  fst (InTransaction drv u work s) = Ret (v, e) /\
  logged (snd (InTransaction drv u work s))
    = logged s1 ++ [settlement_reply drv e (calls s1) t1].
Proof.
  intros Hb Hw Hu Ht.
  rewrite (InTransaction_returns drv u work s sb s1 v e uw1 t1 Hb Hw Hu Ht).
  split; reflexivity.
Qed.

(** C9. On an instance that already holds a transaction [told],
    [InTransaction] starts as on an idle one: [begin] raises nothing and
    overwrites the reference with the transaction [tnew] the collaborator
    hands out, the only call made being [MustBegin], so that [told] is
    neither committed nor rolled back; the whole run is the run on the
    same instance with the reference absent.  [InTransaction] then runs
    the work function on the instance holding [tnew] and settles what the
    work function leaves (commit for a nil error, rollback for an error,
    rollback and the same panic for a panic): no call it makes is on
    [told]. *)
Theorem InTransaction_reentrant (u : loc) (uw : unitOfWork) (told tnew : Tx)
    (s : State) :
  heap s !! u = Some uw ->
  tx uw = Some told ->
  sqlx.MustBegin drv (calls s) (db uw) = Ret (Some tnew) ->
  let sb := {| heap := with_tx u uw (Some tnew) (heap s);
               calls := calls s ++ [CMustBegin (db uw)];
               logged := logged s |} in
  begin drv u s = (Ret tt, sb) /\
  heap sb !! u = Some {| db := db uw; tx := Some tnew |} /\
  commits (calls sb) = commits (calls s) /\
  rollbacks (calls sb) = rollbacks (calls s) /\
  (forall work,
     InTransaction drv u work s =
     InTransaction drv u work (set_heap (with_tx u uw None (heap s)) s)) /\
  (forall (work : loc -> M (any * error)) v e s1 uw1 t1,
     work u sb = (Ret (v, e), s1) ->
     heap s1 !! u = Some uw1 ->
     tx uw1 = Some t1 ->
     InTransaction drv u work s =
       (Ret (v, e),
        {| heap := with_tx u uw1 None (heap s1);
           calls := calls s1 ++ [settlement e t1];
           logged := logged s1 ++ [settlement_reply drv e (calls s1) t1] |})) /\
  (forall (work : loc -> M (any * error)) r s1 uw1 t1,
     work u sb = (Panic r, s1) ->
     heap s1 !! u = Some uw1 ->
     tx uw1 = Some t1 ->
     InTransaction drv u work s =
       (Panic r,
        {| heap := with_tx u uw1 None (heap s1);
           calls := calls s1 ++ [CRollback t1];
           logged := logged s1 ++ [sqlx.Rollback drv (calls s1) t1] |})).
Proof.
  intros Hu Ht Hb sb.
  assert (begin drv u s = (Ret tt, sb)) as E by exact (begin_held drv u uw tnew s Hu Hb).
  split; [exact E|].
  split; [unfold sb, with_tx; cbn; apply lookup_insert_eq|].
  split; [unfold sb; cbn [calls]; rewrite commits_snoc; cbn [is_commit]; lia|].
  split; [unfold sb; cbn [calls]; rewrite rollbacks_snoc; cbn [is_rollback]; lia|].
  split; [|split].
  - intros work.
    assert (begin drv u (set_heap (with_tx u uw None (heap s)) s) = (Ret tt, sb)) as E'.
    { assert (heap (set_heap (with_tx u uw None (heap s)) s) !! u
              = Some {| db := db uw; tx := None |}) as Hc
        by (unfold with_tx; cbn; apply lookup_insert_eq).
      rewrite (begin_held drv u _ tnew _ Hc Hb). unfold sb, with_tx. cbn.
      now rewrite insert_insert_eq. }
    unfold InTransaction, bind. now rewrite E, E'.
  - intros work v e s1 uw1 t1 Hw Hu1 Ht1.
    exact (InTransaction_returns drv u work s sb s1 v e uw1 t1 E Hw Hu1 Ht1).
  - intros work r s1 uw1 t1 Hw Hu1 Ht1.
    exact (InTransaction_repanics drv u work s sb s1 r uw1 t1 E Hw Hu1 Ht1).
Qed.

End Transactions.

(** * The claims on concrete runs *)

(** C1 at an instance holding transaction [9]: the query goes to the
    handle. *)
Lemma dispatch_rule_witness :
  heap active !! 0%nat = Some {| db := conn; tx := Some 9%nat |} /\
  Query steady 0%nat "select" [] active
    = (Ret (Some 7%nat, None), record_call (CQueryx (OnTx 9%nat) "select" []) active).
Proof.
  split; [reflexivity|].
  destruct (dispatch_rule steady 0%nat
              {| db := conn; tx := Some 9%nat |} active eq_refl)
    as (_ & _ & _ & H & _).
  exact (H "select" []).
Defined.

(** C8 with a failing statement, outside a transaction. *)
Lemma MustNamedExec_adapter_witness :
  heap idle !! 0%nat = Some {| db := conn; tx := None |} /\
  fst (MustNamedExec (scripted None (Some "duplicate key")) 0%nat "insert" row idle)
    = Ret (Adapter {| rowsAffected := 0; err := Some "duplicate key" |}).
Proof.
  split; [reflexivity|].
  destruct (MustNamedExec_adapter (scripted None (Some "duplicate key")) 0%nat
              {| db := conn; tx := None |} idle "insert" row eq_refl)
    as (H & _).
  exact (proj1 (H None "duplicate key" eq_refl)).
Defined.

(** C7 on the idle instance. *)
Lemma settle_without_transaction_witness :
  heap idle !! 0%nat = Some {| db := conn; tx := None |} /\
  Commit steady 0%nat idle = (Panic (DynErr no_transaction), idle) /\
  Rollback steady 0%nat idle = (Panic (DynErr no_transaction), idle).
Proof.
  split; [reflexivity|].
  destruct (settle_without_transaction steady 0%nat
              {| db := conn; tx := None |} idle eq_refl eq_refl)
    as (H1 & H2 & _).
  split; [exact H1 | exact H2].
Defined.

(** C6 with a commit that fails: the error comes back and the reference is
    cleared all the same. *)
Lemma settle_clears_witness :
  heap active !! 0%nat = Some {| db := conn; tx := Some 9%nat |} /\
  fst (Commit (scripted (Some "connection lost") None) 0%nat active)
    = Ret (Some "connection lost") /\
  heap (snd (Commit (scripted (Some "connection lost") None) 0%nat active)) !! 0%nat
    = Some {| db := conn; tx := None |} /\
  fst (InTransaction steady 0%nat (work_insert steady) (snd (Commit steady 0%nat active)))
    = Ret (Some (DynInt 42), None) /\
  calls (snd (InTransaction steady 0%nat (work_insert steady)
                (snd (Commit steady 0%nat active))))
    = [CCommit 9%nat; CMustBegin conn; CNamedExec (OnTx 1%nat) "insert" row;
       CCommit 1%nat].
Proof.
  split; [reflexivity|].
  destruct (settle_clears (scripted (Some "connection lost") None) 0%nat
              {| db := conn; tx := Some 9%nat |} 9%nat active eq_refl eq_refl)
    as (H & _ & Hc & _).
  rewrite H. split; [reflexivity|]. split; [exact Hc|].
  destruct (settle_clears steady 0%nat
              {| db := conn; tx := Some 9%nat |} 9%nat active eq_refl eq_refl)
    as (_ & _ & _ & _ & Hi).
  pose proof (proj1 (Hi (snd (Commit steady 0%nat active)) 1%nat (work_insert steady)
                        eq_refl eq_refl)
                (Some (DynInt 42)) None _ {| db := conn; tx := Some 1%nat |} 1%nat
                eq_refl eq_refl eq_refl) as E.
  split; [exact (f_equal fst E) | exact (f_equal (fun p => calls (snd p)) E)].
Defined.

(** C2 with a work function that inserts a row, and a commit that fails. *)
Lemma InTransaction_commits_witness :
  fst (work_insert lossy 0%nat (snd (begin lossy 0%nat idle))) = Ret (Some (DynInt 42), None) /\
  fst (InTransaction lossy 0%nat (work_insert lossy) idle) = Ret (Some (DynInt 42), None) /\
  calls (snd (InTransaction lossy 0%nat (work_insert lossy) idle))
    = [CMustBegin conn; CNamedExec (OnTx 0%nat) "insert" row;
       CCommit 0%nat].
Proof.
  split; [reflexivity|].
  destruct (InTransaction_commits lossy 0%nat (work_insert lossy) idle
              (snd (begin lossy 0%nat idle))
              (snd (work_insert lossy 0%nat (snd (begin lossy 0%nat idle))))
              (Some (DynInt 42)) {| db := conn; tx := Some 0%nat |} 0%nat
              eq_refl eq_refl eq_refl eq_refl)
    as (H1 & H2 & _).
  split; [exact H1 | exact H2].
Defined.

(** C3 with a work function that reports an error. *)
Lemma InTransaction_rolls_back_witness :
  fst (work_error 0%nat (snd (begin steady 0%nat idle))) = Ret (None, Some "rejected") /\
  fst (InTransaction steady 0%nat work_error idle) = Ret (None, Some "rejected") /\
  calls (snd (InTransaction steady 0%nat work_error idle))
    = [CMustBegin conn; CRollback 0%nat].
Proof.
  split; [reflexivity|].
  destruct (InTransaction_rolls_back steady 0%nat work_error idle
              (snd (begin steady 0%nat idle))
              (snd (work_error 0%nat (snd (begin steady 0%nat idle))))
              None "rejected" {| db := conn; tx := Some 0%nat |} 0%nat
              eq_refl eq_refl eq_refl eq_refl)
    as (H1 & H2 & _).
  split; [exact H1 | exact H2].
Defined.

(** C4 with a work function that panics and a rollback that fails. *)
Lemma InTransaction_repanic_witness :
  fst (work_panic 0%nat (snd (begin lossy 0%nat idle))) = Panic (DynStr "boom") /\
  fst (InTransaction lossy 0%nat work_panic idle) = Panic (DynStr "boom") /\
  calls (snd (InTransaction lossy 0%nat work_panic idle))
    = [CMustBegin conn; CRollback 0%nat] /\
  logged (snd (InTransaction lossy 0%nat work_panic idle)) = [Some "connection lost"].
Proof.
  split; [reflexivity|].
  destruct (InTransaction_repanic lossy 0%nat work_panic idle
              (snd (begin lossy 0%nat idle))
              (snd (work_panic 0%nat (snd (begin lossy 0%nat idle))))
              (DynStr "boom") {| db := conn; tx := Some 0%nat |} 0%nat
              eq_refl eq_refl eq_refl eq_refl)
    as (H1 & H2 & _ & _ & H3).
  split; [exact H1 | split; [exact H2 | exact H3]].
Defined.

(** C5 with a commit that fails: the result is the work function's, the
    failure is in the log only. *)
Lemma InTransaction_result_witness :
  fst (work_value 0%nat (snd (begin lossy 0%nat idle))) = Ret (Some (DynInt 42), None) /\
  fst (InTransaction lossy 0%nat work_value idle) = Ret (Some (DynInt 42), None) /\
  logged (snd (InTransaction lossy 0%nat work_value idle)) = [Some "connection lost"].
Proof.
  split; [reflexivity|].
  destruct (InTransaction_result lossy 0%nat work_value idle
              (snd (begin lossy 0%nat idle))
              (snd (work_value 0%nat (snd (begin lossy 0%nat idle))))
              (Some (DynInt 42)) None {| db := conn; tx := Some 0%nat |} 0%nat
              eq_refl eq_refl eq_refl eq_refl)
    as (H1 & H2).
  split; [exact H1 | exact H2].
Defined.

(** C9 on the instance holding transaction [9]: the new start overwrites it
    with transaction [0] and [9] is not settled. *)
Lemma InTransaction_reentrant_witness :
  heap active !! 0%nat = Some {| db := conn; tx := Some 9%nat |} /\
  fst (begin steady 0%nat active) = Ret tt /\
  heap (snd (begin steady 0%nat active)) !! 0%nat = Some {| db := conn; tx := Some 0%nat |} /\
  calls (snd (begin steady 0%nat active)) = [CMustBegin conn] /\
  fst (InTransaction steady 0%nat (work_insert steady) active)
    = Ret (Some (DynInt 42), None) /\
  calls (snd (InTransaction steady 0%nat (work_insert steady) active))
    = [CMustBegin conn; CNamedExec (OnTx 0%nat) "insert" row; CCommit 0%nat] /\
  heap (snd (InTransaction steady 0%nat (work_insert steady) active)) !! 0%nat
    = Some {| db := conn; tx := None |}.
Proof.
  split; [reflexivity|].
  destruct (InTransaction_reentrant steady 0%nat {| db := conn; tx := Some 9%nat |}
              9%nat 0%nat active eq_refl eq_refl eq_refl)
    as (H1 & H2 & _ & _ & _ & Hr & _).
  rewrite H1. split; [reflexivity|]. split; [exact H2|]. split; [reflexivity|].
  pose proof (Hr (work_insert steady) (Some (DynInt 42)) None _
                {| db := conn; tx := Some 0%nat |} 0%nat eq_refl eq_refl eq_refl) as E.
  split; [exact (f_equal fst E)|].
  split; [exact (f_equal (fun p => calls (snd p)) E)|].
  exact (f_equal (fun p => heap (snd p) !! 0%nat) E).
Defined.

(** C2 as stated fails: a work function that commits through the instance it
    is given and returns [(42, nil)].  [InTransaction] then finds no
    transaction to commit, and the caller gets the precondition failure
    instead of [(42, nil)]. *)
Lemma InTransaction_commits_counterexample :
  fst (begin steady 0%nat idle) = Ret tt /\
  fst (work_commits steady 0%nat (snd (begin steady 0%nat idle))) = Ret (Some (DynInt 42), None) /\
  fst (InTransaction steady 0%nat (work_commits steady) idle) = Panic (DynErr no_transaction) /\
  fst (InTransaction steady 0%nat (work_commits steady) idle) <> Ret (Some (DynInt 42), None).
Proof.
  repeat split; try reflexivity. vm_compute. discriminate.
Qed.

(** C3 as stated fails: a work function that rolls back through the
    instance it is given and returns [(nil, err)].  [InTransaction] does
    not return [(nil, err)]; it panics. *)
Lemma InTransaction_rolls_back_counterexample :
  fst (begin steady 0%nat idle) = Ret tt /\
  fst (work_rolls_back steady 0%nat (snd (begin steady 0%nat idle))) = Ret (None, Some "rejected") /\
  fst (InTransaction steady 0%nat (work_rolls_back steady) idle) = Panic (DynErr no_transaction) /\
  fst (InTransaction steady 0%nat (work_rolls_back steady) idle) <> Ret (None, Some "rejected").
Proof.
  repeat split; try reflexivity. vm_compute. discriminate.
Qed.

(** C4 as stated fails: a work function that commits through the instance it
    is given and then panics with ["boom"].  The rollback of the deferred
    function finds no transaction and panics itself, before reaching any
    underlying rollback: the caller sees the precondition failure in place
    of ["boom"]. *)
Lemma InTransaction_repanic_counterexample :
  fst (begin steady 0%nat idle) = Ret tt /\
  fst (work_commits_then_panics steady 0%nat (snd (begin steady 0%nat idle))) = Panic (DynStr "boom") /\
  fst (InTransaction steady 0%nat (work_commits_then_panics steady) idle)
    = Panic (DynErr no_transaction) /\
  fst (InTransaction steady 0%nat (work_commits_then_panics steady) idle) <> Panic (DynStr "boom") /\
  rollbacks (calls (snd (InTransaction steady 0%nat (work_commits_then_panics steady) idle))) = 0%nat.
Proof.
  repeat split; try reflexivity. vm_compute. discriminate.
Qed.

(** C5 as stated fails: a work function that runs a transaction of its own
    on the instance it is given and returns [(42, nil)].  The inner run
    leaves the reference absent, and the outer one panics instead of
    returning the pair. *)
Lemma InTransaction_result_counterexample :
  fst (begin steady 0%nat idle) = Ret tt /\
  fst (work_nested steady 0%nat (snd (begin steady 0%nat idle))) = Ret (Some (DynInt 42), None) /\
  fst (InTransaction steady 0%nat (work_nested steady) idle) = Panic (DynErr no_transaction) /\
  calls (snd (InTransaction steady 0%nat (work_nested steady) idle))
    = [CMustBegin conn; CMustBegin conn; CCommit 1%nat].
Proof.
  repeat split; reflexivity.
Qed.

(** * Further properties of the code *)

Section Further.

Variable drv : sqlx.Driver.

(** [begin], [Commit] and [Rollback] on [u] leave every other instance as it
    was. *)
Lemma lifecycle_other (u u' : loc) (s : State) :
  u' <> u ->
  heap (snd (begin drv u s)) !! u' = heap s !! u' /\
  heap (snd (Commit drv u s)) !! u' = heap s !! u' /\
  heap (snd (Rollback drv u s)) !! u' = heap s !! u'.
Proof.
  intros Hne.
  assert (forall uw t, with_tx u uw t (heap s) !! u' = heap s !! u') as Hw
    by (intros; unfold with_tx; now apply lookup_insert_ne).
  destruct (heap s !! u) as [uw|] eqn:Hu.
  - repeat split.
    + unfold begin, bind. rewrite (deref_held _ _ _ Hu). unfold ask_must.
      destruct (sqlx.MustBegin drv (calls s) (db uw)) as [t|r]; [|reflexivity].
      unfold set_tx. cbn. rewrite Hu. unfold deref. cbn.
      rewrite lookup_insert_eq. cbn. destruct t; cbn; apply (Hw uw).
    + destruct (tx uw) as [t|] eqn:Ht.
      * rewrite (Commit_held drv u uw t s Hu Ht). apply Hw.
      * now rewrite (Commit_absent drv u uw s Hu Ht).
    + destruct (tx uw) as [t|] eqn:Ht.
      * rewrite (Rollback_held drv u uw t s Hu Ht). apply Hw.
      * now rewrite (Rollback_absent drv u uw s Hu Ht).
  - repeat split; unfold begin, Commit, Rollback, bind;
      now rewrite (deref_dangling _ _ Hu).
Qed.

(** X1. [NewUnitOfWork(db, tx)] makes a new object, touches no other
    instance, makes no call and logs nothing.  The instance it returns sends
    its operations to [tx] when one was given and to [db] when [tx] is nil;
    in the latter case it has nothing to settle and [Commit] and [Rollback]
    panic on it. *)
Theorem NewUnitOfWork_dispatch (d : DB) (t : option Tx) (s : State) :
  exists u s0,
    NewUnitOfWork d t s = (Ret u, s0) /\
    heap s !! u = None /\
    (forall u', u' <> u -> heap s0 !! u' = heap s !! u') /\
    calls s0 = calls s /\
    logged s0 = logged s /\
    let on := match t with Some x => OnTx x | None => OnDB d end in
    (forall q a,
       calls (snd (MustNamedExec drv u q a s0)) = calls s ++ [CNamedExec on q a]) /\
    (forall q a,
       calls (snd (Query drv u q a s0)) = calls s ++ [CQueryx on q a]) /\
    (forall dest q a,
       calls (snd (Select drv u dest q a s0)) = calls s ++ [CSelect on dest q a]) /\
    (forall q a,
       calls (snd (NamedQuery drv u q a s0)) = calls s ++ [CNamedQuery on q a]) /\
    (forall q a,
       calls (snd (MustExec drv u q a s0)) = calls s ++ [CMustExec on q a]) /\
    (forall dest q a,
       calls (snd (Get drv u dest q a s0)) = calls s ++ [CGet on dest q a]) /\
    (t = None ->
       Commit drv u s0 = (Panic (DynErr no_transaction), s0) /\
       Rollback drv u s0 = (Panic (DynErr no_transaction), s0)).
Proof.
  set (u := fresh (dom (heap s))).
  exists u, (set_heap (<[u := {| db := d; tx := t |}]> (heap s)) s).
  assert (heap (set_heap (<[u := {| db := d; tx := t |}]> (heap s)) s) !! u
          = Some {| db := d; tx := t |}) as Hu by (cbn; apply lookup_insert_eq).
  split; [reflexivity|].
  split; [apply not_elem_of_dom, is_fresh|].
  split; [intros u' Hne; cbn; now apply lookup_insert_ne|].
  split; [reflexivity|]. split; [reflexivity|]. cbv zeta.
  destruct (operations_run drv u _ _ (match t with Some x => OnTx x | None => OnDB d end)
              Hu eq_refl) as (H1 & H2 & H3 & H4 & H5 & H6).
  repeat split; intros; rewrite ?H1, ?H2, ?H3, ?H4, ?H5, ?H6; try reflexivity.
  - apply (Commit_absent drv u _ _ Hu). now subst t.
  - apply (Rollback_absent drv u _ _ Hu). now subst t.
Qed.

(** X2. When the collaborator cannot begin a transaction ([MustBegin]
    panics with [r]), [InTransaction] panics with [r] and the work function
    is not run: the instance is as before, nothing is rolled back or
    committed (the one call made is [MustBegin]) and nothing is logged. *)
Theorem InTransaction_begin_panics (u : loc) (uw : unitOfWork) (r : dyn)
    (s : State) (work : loc -> M (any * error)) :
  heap s !! u = Some uw ->
  sqlx.MustBegin drv (calls s) (db uw) = Panic r ->
  InTransaction drv u work s = (Panic r, record_call (CMustBegin (db uw)) s).
Proof.
  intros Hu Hb. unfold InTransaction, begin, bind.
  rewrite (deref_held _ _ _ Hu). unfold ask_must. now rewrite Hb.
Qed.

(** X3. When [MustBegin] returns a nil handle, [begin] has already stored
    it: [InTransaction] panics with the no-transaction failure, the work
    function is not run, and the instance is left with an absent
    transaction reference, whatever it held before. *)
Theorem InTransaction_begin_nil (u : loc) (uw : unitOfWork) (s : State)
    (work : loc -> M (any * error)) :
  heap s !! u = Some uw ->
  sqlx.MustBegin drv (calls s) (db uw) = Ret None ->
  InTransaction drv u work s =
    (Panic (DynErr no_transaction),
     {| heap := with_tx u uw None (heap s);
        calls := calls s ++ [CMustBegin (db uw)];
        logged := logged s |}).
Proof.
  intros Hu Hb. unfold InTransaction, begin, bind.
  rewrite (deref_held _ _ _ Hu). unfold ask_must. rewrite Hb.
  unfold set_tx. cbn. rewrite Hu. unfold deref. cbn.
  now rewrite lookup_insert_eq.
Qed.

(** X4. When the work function returns normally but has left the instance
    without a transaction reference (it settled the transaction itself),
    [InTransaction] does not return its result: the settling call panics
    with the no-transaction failure, the deferred rollback panics the same
    way, and the caller gets that failure.  No further call is made and
    nothing is logged: the state is the one the work function left. *)
Theorem InTransaction_settled_by_work (u : loc) (work : loc -> M (any * error))
    (s sb s1 : State) (v : any) (e : error) (uw1 : unitOfWork) :
  begin drv u s = (Ret tt, sb) ->
  work u sb = (Ret (v, e), s1) ->
  heap s1 !! u = Some uw1 ->
  tx uw1 = None ->
  InTransaction drv u work s = (Panic (DynErr no_transaction), s1).
Proof.
  intros Hb Hw Hu Ht. unfold InTransaction, bind at 1. rewrite Hb.
  unfold defer_recover, bind at 1. rewrite Hw. cbn.
  destruct e as [msg|]; unfold bind; cbn.
  - rewrite (Rollback_absent drv u uw1 s1 Hu Ht). cbn.
    now rewrite (Rollback_absent drv u uw1 s1 Hu Ht).
  - rewrite (Commit_absent drv u uw1 s1 Hu Ht). cbn.
    now rewrite (Rollback_absent drv u uw1 s1 Hu Ht).
Qed.

(** X5. When the work function panics with [r] after leaving the instance
    without a transaction reference, the rollback of the deferred function
    panics before [panic(r)] is reached: the caller gets the no-transaction
    failure, not [r]; no rollback reaches the collaborator and nothing is
    logged. *)
Theorem InTransaction_panic_replaced (u : loc) (work : loc -> M (any * error))
    (s sb s1 : State) (r : dyn) (uw1 : unitOfWork) :
  begin drv u s = (Ret tt, sb) ->
  work u sb = (Panic r, s1) ->
  heap s1 !! u = Some uw1 ->
  tx uw1 = None ->
  InTransaction drv u work s = (Panic (DynErr no_transaction), s1).
Proof.
  intros Hb Hw Hu Ht. unfold InTransaction, bind at 1. rewrite Hb.
  unfold defer_recover, bind at 1. rewrite Hw. cbn. unfold bind.
  now rewrite (Rollback_absent drv u uw1 s1 Hu Ht).
Qed.

End Further.

Section Composition.

Variable drv : sqlx.Driver.

(** The state [Commit] or [Rollback] leaves on an instance that held a
    transaction: the instance is there, without a transaction reference. *)
Lemma settled_is_idle (u : loc) (uw : unitOfWork) (t : Tx) (s s1 : State) :
  heap s !! u = Some uw ->
  tx uw = Some t ->
  s1 = snd (Commit drv u s) \/ s1 = snd (Rollback drv u s) ->
  heap s1 !! u = Some {| db := db uw; tx := None |}.
Proof.
  intros Hu Ht [-> | ->].
  - rewrite (Commit_held drv u uw t s Hu Ht). unfold with_tx. cbn.
    apply lookup_insert_eq.
  - rewrite (Rollback_held drv u uw t s Hu Ht). unfold with_tx. cbn.
    apply lookup_insert_eq.
Qed.

(** X6. A transaction is settled at most once through an instance: after a
    [Commit] or a [Rollback] on an instance holding a transaction, whether
    the underlying call failed or not, a further [Commit] or [Rollback]
    panics with the no-transaction failure and makes no call on the
    handle. *)
Theorem settle_once (u : loc) (uw : unitOfWork) (t : Tx) (s s1 : State) :
  heap s !! u = Some uw ->
  tx uw = Some t ->
  s1 = snd (Commit drv u s) \/ s1 = snd (Rollback drv u s) ->
  Commit drv u s1 = (Panic (DynErr no_transaction), s1) /\
  Rollback drv u s1 = (Panic (DynErr no_transaction), s1).
Proof.
  intros Hu Ht Hs.
  pose proof (settled_is_idle u uw t s s1 Hu Ht Hs) as H1.
  split.
  - exact (Commit_absent drv u _ s1 H1 eq_refl).
  - exact (Rollback_absent drv u _ s1 H1 eq_refl).
Qed.

(** X7. After a [Commit] or a [Rollback] on an instance holding a
    transaction, whether the underlying call failed or not, the six
    query/exec operations of the instance go to the connection again. *)
Theorem settled_dispatch (u : loc) (uw : unitOfWork) (t : Tx) (s s1 : State) :
  heap s !! u = Some uw ->
  tx uw = Some t ->
  s1 = snd (Commit drv u s) \/ s1 = snd (Rollback drv u s) ->
  (forall q a,
     calls (snd (MustNamedExec drv u q a s1))
       = calls s1 ++ [CNamedExec (OnDB (db uw)) q a]) /\
  (forall q a,
     calls (snd (Query drv u q a s1)) = calls s1 ++ [CQueryx (OnDB (db uw)) q a]) /\
  (forall d q a,
     calls (snd (Select drv u d q a s1)) = calls s1 ++ [CSelect (OnDB (db uw)) d q a]) /\
  (forall q a,
     calls (snd (NamedQuery drv u q a s1))
       = calls s1 ++ [CNamedQuery (OnDB (db uw)) q a]) /\
  (forall q a,
     calls (snd (MustExec drv u q a s1)) = calls s1 ++ [CMustExec (OnDB (db uw)) q a]) /\
  (forall d q a,
     calls (snd (Get drv u d q a s1)) = calls s1 ++ [CGet (OnDB (db uw)) d q a]).
Proof.
  intros Hu Ht Hs.
  pose proof (settled_is_idle u uw t s s1 Hu Ht Hs) as H.
  destruct (operations_run drv u _ s1 (OnDB (db uw)) H eq_refl)
    as (H1 & H2 & H3 & H4 & H5 & H6).
  repeat split; intros; rewrite ?H1, ?H2, ?H3, ?H4, ?H5, ?H6; reflexivity.
Qed.

(** X8. [InTransaction] takes an idle instance back to idle: when the
    transaction could be begun and the work function leaves the store of
    instances as it found it, then, whether the work function returned a
    value, returned an error or panicked, the store of instances after
    [InTransaction] is the one before it. *)
Theorem InTransaction_restores_idle (u : loc) (uw : unitOfWork) (t : Tx)
    (s s1 : State) (work : loc -> M (any * error)) (o : Outcome (any * error)) :
  heap s !! u = Some uw ->
  tx uw = None ->
  sqlx.MustBegin drv (calls s) (db uw) = Ret (Some t) ->
  work u {| heap := with_tx u uw (Some t) (heap s);
            calls := calls s ++ [CMustBegin (db uw)];
            logged := logged s |} = (o, s1) ->
  heap s1 = with_tx u uw (Some t) (heap s) ->
  heap (snd (InTransaction drv u work s)) = heap s.
Proof.
  intros Hu Ht Hb Hw Hs1.
  assert (heap s1 !! u = Some {| db := db uw; tx := Some t |}) as Hu1
    by (rewrite Hs1; unfold with_tx; apply lookup_insert_eq).
  assert (with_tx u {| db := db uw; tx := Some t |} None (heap s1) = heap s) as E.
  { rewrite Hs1. unfold with_tx. cbn. rewrite insert_insert_eq.
    apply insert_id. rewrite Hu. destruct uw as [d x]. cbn in *. now subst x. }
  pose proof (begin_held drv u uw t s Hu Hb) as Hbegin.
  destruct o as [[v e]|r].
  - rewrite (InTransaction_returns drv u work s _ s1 v e _ t Hbegin Hw Hu1 eq_refl).
    exact E.
  - rewrite (InTransaction_repanics drv u work s _ s1 r _ t Hbegin Hw Hu1 eq_refl).
    exact E.
Qed.

(** X9. A [MustExec] that fails inside [InTransaction] aborts it: when the
    work function starts with a [MustExec] on which the collaborator panics
    with [r], the rest of the work function is not run, the transaction
    just begun is rolled back (the calls made are [MustBegin], the
    statement on the handle, [Rollback]) and the caller gets the panic
    [r]. *)
Theorem InTransaction_MustExec_fails (u : loc) (uw : unitOfWork) (t : Tx)
    (s : State) (q : string) (a : list any) (r : dyn)
    (k : loc -> sql_Result -> M (any * error)) :
  heap s !! u = Some uw ->
  sqlx.MustBegin drv (calls s) (db uw) = Ret (Some t) ->
  sqlx.MustExec drv (calls s ++ [CMustBegin (db uw)]) (OnTx t) q a = Panic r ->
  InTransaction drv u (fun u' => res <- MustExec drv u' q a ;; k u' res) s =
    (Panic r,
     {| heap := with_tx u uw None (heap s);
        calls := calls s ++ [CMustBegin (db uw); CMustExec (OnTx t) q a; CRollback t];
        logged := logged s ++
          [sqlx.Rollback drv
             (calls s ++ [CMustBegin (db uw); CMustExec (OnTx t) q a]) t] |}).
Proof.
  intros Hu Hb Hx.
  pose proof (begin_held drv u uw t s Hu Hb) as Hbegin.
  set (sb := {| heap := with_tx u uw (Some t) (heap s);
                calls := calls s ++ [CMustBegin (db uw)];
                logged := logged s |}) in *.
  assert (heap sb !! u = Some {| db := db uw; tx := Some t |}) as Hsb
    by (unfold sb, with_tx; cbn; apply lookup_insert_eq).
  destruct (operations_run drv u _ sb (OnTx t) Hsb eq_refl)
    as (_ & _ & _ & _ & H5 & _).
  assert ((fun u' => res <- MustExec drv u' q a ;; k u' res) u sb
          = (Panic r, record_call (CMustExec (OnTx t) q a) sb)) as Hw.
  { unfold bind. rewrite H5. unfold sb at 1. cbn [calls]. rewrite Hx. reflexivity. }
  rewrite (InTransaction_repanics drv u _ s sb _ r _ t Hbegin Hw Hsb eq_refl).
  unfold sb, with_tx. cbn. rewrite insert_insert_eq, <- !app_assoc. reflexivity.
Qed.

(** X10. A [MustNamedExec] that fails with an error inside [InTransaction]
    does not abort it: when the work function makes the call, drops the
    result and returns [(v, nil)], and the collaborator returns from the
    statement (with an error or without), the transaction is committed and
    [(v, nil)] is returned. *)
Theorem InTransaction_MustNamedExec_ignored (u : loc) (uw : unitOfWork) (t : Tx)
    (s : State) (q : string) (a : any) (v : any) (reply : native * error) :
  heap s !! u = Some uw ->
  sqlx.MustBegin drv (calls s) (db uw) = Ret (Some t) ->
  sqlx.NamedExec drv (calls s ++ [CMustBegin (db uw)]) (OnTx t) q a = Ret reply ->
  let s' := snd (InTransaction drv u
                   (fun u' => MustNamedExec drv u' q a ;;; ret (v, None)) s) in
  fst (InTransaction drv u
         (fun u' => MustNamedExec drv u' q a ;;; ret (v, None)) s) = Ret (v, None) /\
  calls s' = calls s ++ [CMustBegin (db uw); CNamedExec (OnTx t) q a; CCommit t] /\
  heap s' = with_tx u uw None (heap s).
Proof.
  intros Hu Hb Hx.
  pose proof (begin_held drv u uw t s Hu Hb) as Hbegin.
  set (sb := {| heap := with_tx u uw (Some t) (heap s);
                calls := calls s ++ [CMustBegin (db uw)];
                logged := logged s |}) in *.
  assert (heap sb !! u = Some {| db := db uw; tx := Some t |}) as Hsb
    by (unfold sb, with_tx; cbn; apply lookup_insert_eq).
  destruct (operations_run drv u _ sb (OnTx t) Hsb eq_refl) as (H1 & _).
  assert ((fun u' => MustNamedExec drv u' q a ;;; ret (v, @None string)) u sb
          = (Ret (v, None), record_call (CNamedExec (OnTx t) q a) sb)) as Hw.
  { unfold bind. rewrite H1. unfold sb at 1. cbn [calls]. rewrite Hx. reflexivity. }
  cbv zeta.
  rewrite (InTransaction_returns drv u _ s sb _ v None _ t Hbegin Hw Hsb eq_refl).
  unfold sb, with_tx. cbn. rewrite insert_insert_eq, <- !app_assoc.
  repeat split.
Qed.

(** X14. A [MustNamedExec] on which the collaborator panics inside
    [InTransaction] aborts it, since [MustNamedExec] recovers nothing:
    when the work function starts with such a call, the rest of it is not
    run, the transaction just begun is rolled back and the caller gets the
    collaborator's panic. *)
Theorem InTransaction_MustNamedExec_panics (u : loc) (uw : unitOfWork) (t : Tx)
    (s : State) (q : string) (a : any) (r : dyn)
    (k : loc -> sql_Result -> M (any * error)) :
  heap s !! u = Some uw ->
  sqlx.MustBegin drv (calls s) (db uw) = Ret (Some t) ->
  sqlx.NamedExec drv (calls s ++ [CMustBegin (db uw)]) (OnTx t) q a = Panic r ->
  InTransaction drv u (fun u' => res <- MustNamedExec drv u' q a ;; k u' res) s =
    (Panic r,
     {| heap := with_tx u uw None (heap s);
        calls := calls s ++ [CMustBegin (db uw); CNamedExec (OnTx t) q a; CRollback t];
        logged := logged s ++
          [sqlx.Rollback drv
             (calls s ++ [CMustBegin (db uw); CNamedExec (OnTx t) q a]) t] |}).
Proof.
  intros Hu Hb Hx.
  pose proof (begin_held drv u uw t s Hu Hb) as Hbegin.
  set (sb := {| heap := with_tx u uw (Some t) (heap s);
                calls := calls s ++ [CMustBegin (db uw)];
                logged := logged s |}) in *.
  assert (heap sb !! u = Some {| db := db uw; tx := Some t |}) as Hsb
    by (unfold sb, with_tx; cbn; apply lookup_insert_eq).
  destruct (operations_run drv u _ sb (OnTx t) Hsb eq_refl) as (H1 & _).
  assert ((fun u' => res <- MustNamedExec drv u' q a ;; k u' res) u sb
          = (Panic r, record_call (CNamedExec (OnTx t) q a) sb)) as Hw.
  { unfold bind. rewrite H1. unfold sb at 1. cbn [calls]. rewrite Hx. reflexivity. }
  rewrite (InTransaction_repanics drv u _ s sb _ r _ t Hbegin Hw Hsb eq_refl).
  unfold sb, with_tx. cbn. rewrite insert_insert_eq, <- !app_assoc. reflexivity.
Qed.

End Composition.

Section Frames.

Variable drv : sqlx.Driver.

(** X11. Only [InTransaction] writes to the log: [begin], [Commit],
    [Rollback] and the six query/exec operations, called directly, hand
    nothing to [log.Println], in any state and whether they return or
    panic. *)
Theorem direct_methods_do_not_log (u : loc) (s : State) :
  logged (snd (begin drv u s)) = logged s /\
  logged (snd (Commit drv u s)) = logged s /\
  logged (snd (Rollback drv u s)) = logged s /\
  (forall q a, logged (snd (MustNamedExec drv u q a s)) = logged s) /\
  (forall q a, logged (snd (Query drv u q a s)) = logged s) /\
  (forall d q a, logged (snd (Select drv u d q a s)) = logged s) /\
  (forall q a, logged (snd (NamedQuery drv u q a s)) = logged s) /\
  (forall q a, logged (snd (MustExec drv u q a s)) = logged s) /\
  (forall d q a, logged (snd (Get drv u d q a s)) = logged s).
Proof.
  destruct (heap s !! u) as [uw|] eqn:Hu.
  - destruct (operations_run drv u uw s _ Hu eq_refl)
      as (H1 & H2 & H3 & H4 & H5 & H6).
    repeat split; intros;
      rewrite ?H1, ?H2, ?H3, ?H4, ?H5, ?H6; try reflexivity.
    + unfold begin, bind. rewrite (deref_held _ _ _ Hu). unfold ask_must.
      destruct (sqlx.MustBegin drv (calls s) (db uw)) as [t|r]; [|reflexivity].
      unfold set_tx. cbn. rewrite Hu. unfold deref. cbn.
      rewrite lookup_insert_eq. cbn. now destruct t.
    + destruct (tx uw) as [t|] eqn:Ht.
      * now rewrite (Commit_held drv u uw t s Hu Ht).
      * now rewrite (Commit_absent drv u uw s Hu Ht).
    + destruct (tx uw) as [t|] eqn:Ht.
      * now rewrite (Rollback_held drv u uw t s Hu Ht).
      * now rewrite (Rollback_absent drv u uw s Hu Ht).
  - repeat split; intros;
      unfold MustNamedExec, Query, Select, NamedQuery, MustExec, Get,
        begin, Commit, Rollback, bind;
      now rewrite (deref_dangling _ _ Hu).
Qed.

(** One settling step of [InTransaction], seen from another instance. *)
Ltac settle_step Hne :=
  match goal with
  | |- context [Commit drv ?u ?x] =>
      let H := fresh "H" in
      destruct (lifecycle_other drv u _ x Hne) as (_ & H & _);
      destruct (Commit drv u x) as [[?|?] ?]; cbn in H |- *
  | |- context [Rollback drv ?u ?x] =>
      let H := fresh "H" in
      destruct (lifecycle_other drv u _ x Hne) as (_ & _ & H);
      destruct (Rollback drv u x) as [[?|?] ?]; cbn in H |- *
  end.

(** X12. The methods of one instance never write to another: [begin],
    [Commit] and [Rollback] on [u] leave every other instance [u'] as it
    was, and so does [InTransaction] on [u] when the work function itself
    leaves [u'] alone, on every path (return, error, panic, failed
    begin). *)
Theorem other_instances_untouched (u u' : loc) (s : State) :
  u' <> u ->
  heap (snd (begin drv u s)) !! u' = heap s !! u' /\
  heap (snd (Commit drv u s)) !! u' = heap s !! u' /\
  heap (snd (Rollback drv u s)) !! u' = heap s !! u' /\
  (forall work : loc -> M (any * error),
     (forall s0, heap (snd (work u s0)) !! u' = heap s0 !! u') ->
     heap (snd (InTransaction drv u work s)) !! u' = heap s !! u').
Proof.
  intros Hne.
  destruct (lifecycle_other drv u u' s Hne) as (Hb & Hc & Hr).
  split; [exact Hb|]. split; [exact Hc|]. split; [exact Hr|].
  intros work Hwk. unfold InTransaction, bind at 1.
  destruct (begin drv u s) as [[[]|r] sb]; cbn in Hb |- *; [|exact Hb].
  specialize (Hwk sb). unfold defer_recover, bind at 1.
  destruct (work u sb) as [[[v e]|r] s1]; cbn in Hwk |- *.
  - destruct e as [msg|]; unfold bind, log_Println, ret, panic;
      settle_step Hne; try congruence;
      unfold bind, log_Println, ret, panic;
      settle_step Hne; congruence.
  - unfold bind, log_Println, ret, panic.
    settle_step Hne; congruence.
Qed.

End Frames.

(** * The further properties on concrete runs *)

(** A work function that only inserts leaves the store of instances alone. *)
Lemma work_insert_frame (drv : sqlx.Driver) (u : loc) (s0 : State) :
  heap (snd (work_insert drv u s0)) = heap s0.
Proof.
  unfold work_insert, bind. destruct (heap s0 !! u) as [uw|] eqn:Hu.
  - destruct (operations_run drv u uw s0 _ Hu eq_refl) as (H1 & _).
    rewrite H1.
    now destruct (adapted (sqlx.NamedExec drv (calls s0) _ "insert" row)).
  - unfold MustNamedExec, bind. now rewrite (deref_dangling _ _ Hu).
Qed.

(** X2 on the idle instance, with a store that refuses the transaction. *)
Lemma InTransaction_begin_panics_witness :
  heap idle !! 0%nat = Some {| db := conn; tx := None |} /\
  InTransaction refusing 0%nat work_value idle
    = (Panic (DynErr "too many connections"), record_call (CMustBegin conn) idle).
Proof.
  split; [reflexivity|].
  exact (InTransaction_begin_panics refusing 0%nat {| db := conn; tx := None |}
           (DynErr "too many connections") idle work_value eq_refl eq_refl).
Defined.

(** X3 on the instance holding transaction [9]: the reference is lost. *)
Lemma InTransaction_begin_nil_witness :
  heap active !! 0%nat = Some {| db := conn; tx := Some 9%nat |} /\
  fst (InTransaction empty_handed 0%nat work_value active)
    = Panic (DynErr no_transaction) /\
  heap (snd (InTransaction empty_handed 0%nat work_value active)) !! 0%nat
    = Some {| db := conn; tx := None |}.
Proof.
  split; [reflexivity|].
  rewrite (InTransaction_begin_nil empty_handed 0%nat
             {| db := conn; tx := Some 9%nat |} active work_value eq_refl eq_refl).
  split; reflexivity.
Defined.

(** X4 with a work function that commits by itself. *)
Lemma InTransaction_settled_by_work_witness :
  fst (work_commits steady 0%nat (snd (begin steady 0%nat idle)))
    = Ret (Some (DynInt 42), None) /\
  InTransaction steady 0%nat (work_commits steady) idle
    = (Panic (DynErr no_transaction),
       snd (work_commits steady 0%nat (snd (begin steady 0%nat idle)))).
Proof.
  split; [reflexivity|].
  exact (InTransaction_settled_by_work steady 0%nat (work_commits steady) idle
           (snd (begin steady 0%nat idle))
           (snd (work_commits steady 0%nat (snd (begin steady 0%nat idle))))
           (Some (DynInt 42)) None {| db := conn; tx := None |}
           eq_refl eq_refl eq_refl eq_refl).
Defined.

(** X5 with a work function that commits by itself, then panics. *)
Lemma InTransaction_panic_replaced_witness :
  fst (work_commits_then_panics steady 0%nat (snd (begin steady 0%nat idle)))
    = Panic (DynStr "boom") /\
  fst (InTransaction steady 0%nat (work_commits_then_panics steady) idle)
    = Panic (DynErr no_transaction).
Proof.
  split; [reflexivity|].
  rewrite (InTransaction_panic_replaced steady 0%nat
             (work_commits_then_panics steady) idle
             (snd (begin steady 0%nat idle))
             (snd (work_commits_then_panics steady 0%nat (snd (begin steady 0%nat idle))))
             (DynStr "boom") {| db := conn; tx := None |}
             eq_refl eq_refl eq_refl eq_refl).
  reflexivity.
Defined.

(** X6: a rollback after a commit that failed. *)
Lemma settle_once_witness :
  fst (Commit lossy 0%nat active) = Ret (Some "connection lost") /\
  fst (Rollback lossy 0%nat (snd (Commit lossy 0%nat active)))
    = Panic (DynErr no_transaction) /\
  calls (snd (Rollback lossy 0%nat (snd (Commit lossy 0%nat active))))
    = [CCommit 9%nat].
Proof.
  split; [reflexivity|].
  destruct (settle_once lossy 0%nat {| db := conn; tx := Some 9%nat |} 9%nat
              active (snd (Commit lossy 0%nat active)) eq_refl eq_refl
              (or_introl eq_refl)) as (_ & H).
  rewrite H. split; reflexivity.
Defined.

(** X7: a query after a rollback. *)
Lemma settled_dispatch_witness :
  calls (snd (Query steady 0%nat "select" [] (snd (Rollback steady 0%nat active))))
    = [CRollback 9%nat; CQueryx (OnDB conn) "select" []].
Proof.
  destruct (settled_dispatch steady 0%nat {| db := conn; tx := Some 9%nat |} 9%nat
              active (snd (Rollback steady 0%nat active)) eq_refl eq_refl
              (or_intror eq_refl)) as (_ & H & _).
  exact (H "select" []).
Defined.

(** X8 with a work function that inserts a row and a commit that fails. *)
Lemma InTransaction_restores_idle_witness :
  heap (snd (InTransaction lossy 0%nat (work_insert lossy) idle)) = heap idle.
Proof.
  exact (InTransaction_restores_idle lossy 0%nat {| db := conn; tx := None |} 0%nat
           idle _ (work_insert lossy) _ eq_refl eq_refl eq_refl eq_refl eq_refl).
Defined.

(** X9 with a statement the store rejects. *)
Lemma InTransaction_MustExec_fails_witness :
  fst (InTransaction failing 0%nat (work_must_exec failing) idle)
    = Panic (DynErr "syntax error") /\
  calls (snd (InTransaction failing 0%nat (work_must_exec failing) idle))
    = [CMustBegin conn; CMustExec (OnTx 0%nat) "delete" []; CRollback 0%nat].
Proof.
  pose proof (InTransaction_MustExec_fails failing 0%nat
                {| db := conn; tx := None |} 0%nat idle "delete" []
                (DynErr "syntax error")
                (fun _ _ => ret (Some (DynInt 42), None))
                eq_refl eq_refl eq_refl) as H.
  split; [exact (f_equal fst H) | exact (f_equal (fun p => calls (snd p)) H)].
Defined.

(** X10 with an insert the store rejects: the transaction is committed. *)
Lemma InTransaction_MustNamedExec_ignored_witness :
  fst (MustNamedExec failing 0%nat "insert" row
         (snd (begin failing 0%nat idle)))
    = Ret (Adapter {| rowsAffected := 0; err := Some "syntax error" |}) /\
  fst (InTransaction failing 0%nat (work_insert failing) idle)
    = Ret (Some (DynInt 42), None) /\
  calls (snd (InTransaction failing 0%nat (work_insert failing) idle))
    = [CMustBegin conn; CNamedExec (OnTx 0%nat) "insert" row;
       CCommit 0%nat].
Proof.
  split; [reflexivity|].
  destruct (InTransaction_MustNamedExec_ignored failing 0%nat
              {| db := conn; tx := None |} 0%nat idle "insert" row
              (Some (DynInt 42)) (None, Some "syntax error")
              eq_refl eq_refl eq_refl) as (H1 & H2 & _).
  split; [exact H1 | exact H2].
Defined.

(** X14 with a named argument that is an int: the collaborator panics on
    it, and the transaction is rolled back. *)
Lemma InTransaction_MustNamedExec_panics_witness :
  fst (InTransaction steady 0%nat (work_insert_int steady) idle)
    = Panic bad_named_argument /\
  calls (snd (InTransaction steady 0%nat (work_insert_int steady) idle))
    = [CMustBegin conn; CNamedExec (OnTx 0%nat) "insert" (Some (DynInt 1));
       CRollback 0%nat].
Proof.
  pose proof (InTransaction_MustNamedExec_panics steady 0%nat
                {| db := conn; tx := None |} 0%nat idle "insert" (Some (DynInt 1))
                bad_named_argument
                (fun _ _ => ret (Some (DynInt 42), None))
                eq_refl eq_refl eq_refl) as H.
  split; [exact (f_equal fst H) | exact (f_equal (fun p => calls (snd p)) H)].
Defined.

(** X12 with two instances on one connection: a transaction run on the one
    at [0] leaves the one at [1] holding its transaction [3]. *)
Lemma other_instances_untouched_witness :
  1%nat <> 0%nat /\
  heap (snd (InTransaction steady 0%nat (work_insert steady) two_instances)) !! 1%nat
    = Some {| db := conn; tx := Some 3%nat |}.
Proof.
  assert (1%nat <> 0%nat) as Hne by discriminate.
  split; [exact Hne|].
  destruct (other_instances_untouched steady 0%nat 1%nat two_instances Hne)
    as (_ & _ & _ & H).
  exact (eq_trans
           (H (work_insert steady)
              (fun s0 => f_equal (fun h : gmap nat unitOfWork => h !! 1%nat)
                           (work_insert_frame steady 0%nat s0)))
           eq_refl).
Defined.

(** X13 on the idle instance. *)
Lemma dispatch_inside_transaction_witness :
  exists sb,
    begin steady 0%nat idle = (Ret tt, sb) /\
    calls (snd (Query steady 0%nat "select" [] sb))
      = calls sb ++ [CQueryx (OnTx 0%nat) "select" []].
Proof.
  destruct (dispatch_inside_transaction steady 0%nat {| db := conn; tx := None |}
              0%nat idle eq_refl eq_refl) as (sb & Hb & _ & H & _).
  exists sb. split; [exact Hb | exact (H "select" [])].
Defined.
